(** * Entity linking for KBQA: a shallow embedding of
      [deeppavlov/models/kbqa/entity_linking.py]

    The Python class [EntityLinker] maps an entity mention to Wikidata
    identifiers through three search tiers (exact and lemmatised lookup,
    substring search, fuzzy search), retrieves the triplets of every
    identifier and optionally removes the entities that a rule judges
    implausible for the question.

    Conventions of the embedding:
    - a Python [str] is the list of its Unicode code points, so that [len]
      is [length];
    - a Python exception is the [Raise] alternative of [result];
    - a dict iterated in insertion order is an association list with
      distinct keys; a dict that is only looked up is a [gmap];
    - a Python [float] is idealised as an exact rational of [Q] where only
      counts, bounds and order matter; [link_entities_double] computes the
      confidences in IEEE double precision, as the interpreter does;
    - the libraries the module imports (the [str] methods of the runtime,
      [pymorphy2], [fuzzywuzzy], the iteration order of [set]) are the
      fields of the class [Externals]. *)

From Stdlib Require Import ZArith NArith QArith String Ascii.
From Stdlib Require Import PrimFloat SpecFloat FloatOps.
From stdpp Require Import base option list sorting gmap.

Local Open Scope Z_scope.

(** ** Strings *)

Abbreviation pystr := (list N).

(** Decoder of the UTF-8 bytes of a Rocq string literal into code points
    (sequences of one to three bytes, which covers Latin and Cyrillic). *)
Fixpoint utf8_decode (bs : list N) : pystr :=
  match bs with
  | [] => []
  | b :: r =>
      if (b <? 128)%N then b :: utf8_decode r
      else if (b <? 224)%N then
        match r with
        | b1 :: r1 => ((b - 192) * 64 + (b1 - 128))%N :: utf8_decode r1
        | [] => []
        end
      else
        match r with
        | b1 :: b2 :: r2 =>
            ((b - 224) * 4096 + (b1 - 128) * 64 + (b2 - 128))%N :: utf8_decode r2
        | _ => []
        end
  end.

Definition u (s : string) : pystr :=
  utf8_decode (map N_of_ascii (list_ascii_of_string s)).

(** [' '.join(words)] *)
Fixpoint join_space (words : list pystr) : pystr :=
  match words with
  | [] => []
  | [w] => w
  | w :: rest => w ++ 32%N :: join_space rest
  end.

(** [s.split(' ')]: every single space separates, so the result is never
    empty and consecutive spaces give empty words. *)
Fixpoint split_space (s : pystr) : list pystr :=
  match s with
  | [] => [[]]
  | c :: s' =>
      if (c =? 32)%N then [] :: split_space s'
      else match split_space s' with
           | w :: ws => (c :: w) :: ws
           | [] => [[c]]
           end
  end.

(** [s.startswith(p)] *)
Definition startswith (s p : pystr) : bool := bool_decide (p `prefix_of` s).

(** [s.find(sub)]: the lowest index at which [sub] occurs in [s], or -1. *)
Fixpoint find_from (i : Z) (s sub : pystr) : Z :=
  if startswith s sub then i
  else match s with
       | [] => -1
       | _ :: s' => find_from (i + 1) s' sub
       end.

Definition str_find (s sub : pystr) : Z := find_from 0 s sub.

(** ** Exceptions *)

Inductive exn : Set := IndexError | ZeroDivisionError | UnboundLocalError.

Inductive result (A : Type) : Type :=
| Ok (a : A)
| Raise (e : exn).
Arguments Ok {A} a.
Arguments Raise {A} e.

(** Sequencing: an exception raised by the first statement propagates. *)
Global Instance result_ret : MRet result := λ A a, Ok a.
Global Instance result_bind : MBind result := λ A B k m,
  match m with
  | Ok a => k a
  | Raise e => Raise e
  end.

Global Instance result_fmap : FMap result := λ A B f m,
  match m with
  | Ok a => Ok (f a)
  | Raise e => Raise e
  end.

Definition returns {A} (m : result A) : Prop := ∃ a, m = Ok a.

(** [l[i]] for a non-negative literal index [i] *)
Definition getitem {A} (l : list A) (i : nat) : result A :=
  match l !! i with
  | Some x => Ok x
  | None => Raise IndexError
  end.

Global Instance Qlt_dec (x y : Q) : Decision (x < y)%Q.
Proof. unfold Qlt. apply _. Defined.

(** [a / b] on the lengths of two strings *)
Definition truediv (a b : nat) : result Q :=
  match b with
  | O => Raise ZeroDivisionError
  | S _ => Ok (Z.of_nat a # Pos.of_nat b)
  end.

(** The value of [len(title) / word_length] in [fuzzy_entity_search] when
    the entity is not empty. *)
Definition len_ratio (title entity : pystr) : Q :=
  Z.of_nat (length title) # Pos.of_nat (length entity).

(** [float(z)] for an integer [z]: the double nearest to [z]. (Beyond the
    range of doubles the interpreter raises [OverflowError]; a similarity
    score is far from it.) *)
Definition float_of_int (z : Z) : float :=
  SF2Prim (binary_normalize prec emax z 0 false).

(** The literal [0.01]: the double nearest to one hundredth. *)
Definition one_hundredth : float := 0x1.47ae147ae147bp-7%float.

(** ** Python values compared by [==]

    [itertools.product('01', repeat=k)] yields tuples of one-character
    strings, and the source compares their elements with the integer 0. *)
Inductive pyval : Type :=
| PyStr (s : pystr)
| PyInt (z : Z).

Definition py_eq (a b : pyval) : bool :=
  match a, b with
  | PyStr s, PyStr t => bool_decide (s = t)
  | PyInt x, PyInt y => bool_decide (x = y)
  | _, _ => false
  end.

(** [itertools.product(alphabet, repeat=k)], in the order of the library:
    the last position varies fastest. *)
Fixpoint product (alphabet : list N) (k : nat) : list (list N) :=
  match k with
  | O => [[]]
  | S k' => c ← alphabet; (c ::.) <$> product alphabet k'
  end.

(** ** Data model *)

(** A candidate of the name index: element 0 is its surface form, element 1
    the Wikidata identifier, element 2 the number it is ranked by. *)
Record Candidate : Type := mkCandidate {
  surface : pystr;
  ident : pystr;
  rank : Z
}.

Global Instance Candidate_eq_dec : EqDecision Candidate.
Proof. solve_decision. Defined.

(** A triplet of the knowledge base: [triplet[0]] is the property and
    [triplet[1]] the value. *)
Definition Fact : Type := pystr * pystr.

(** [name_to_q] *)
Abbreviation NameIndex := (list (pystr * list Candidate)).

(** [d.get(k, [])] *)
Fixpoint dict_get (d : NameIndex) (k : pystr) : list Candidate :=
  match d with
  | [] => []
  | (k', v) :: d' => if bool_decide (k' = k) then v else dict_get d' k
  end.

(** The instance attributes set by [__init__]. *)
Record EntityLinker : Type := mkEntityLinker {
  name_to_q : NameIndex;
  wikidata : gmap pystr (list Fact);
  lemmatize : bool;
  debug : bool;
  rule_filter_entities : bool
}.

(** [sorted(l, key=key, reverse=True)]: a stable sort in descending order
    of the key; elements of equal key keep their order. *)
Fixpoint insert_desc {A} (key : A → Z) (x : A) (l : list A) : list A :=
  match l with
  | [] => [x]
  | y :: l' => if key x <? key y then y :: insert_desc key x l' else x :: l
  end.

Fixpoint sorted_desc {A} (key : A → Z) (l : list A) : list A :=
  match l with
  | [] => []
  | x :: l' => insert_desc key x (sorted_desc key l')
  end.

(** A call of [fuzz.ratio] made by [fuzzy_entity_search]. *)
Inductive ratio_call : Type :=
| ScoreTitle (title entity : pystr)
| ScoreSurface (entity surface : pystr).

(** ** The imported libraries *)

Class Externals : Type := {
  (** [str.lower] *)
  lower : pystr → pystr;
  (** [pymorphy2.MorphAnalyzer().parse(tok)[0].normal_form] *)
  normal_form : pystr → pystr;
  (** [fuzz.ratio] *)
  fuzz_ratio : pystr → pystr → Z;
  (** [list(set(l))]: the elements of [l] without repetition, in the
      iteration order of the set *)
  list_of_set : ∀ A, EqDecision A → list A → list A
}.
Arguments list_of_set {_ _ _} l.

Class ExternalsOk (E : Externals) : Prop := {
  fuzz_ratio_range : ∀ a b, 0 ≤ fuzz_ratio a b ≤ 100;
  list_of_set_NoDup : ∀ A (H : EqDecision A) (l : list A), NoDup (list_of_set l);
  list_of_set_elem : ∀ A (H : EqDecision A) (l : list A) (x : A),
      x ∈ list_of_set l ↔ x ∈ l
}.

(** ** The methods of [EntityLinker] *)

Section Methods.
Context {E : Externals}.

(** *** [find_candidate_entities] *)

(** The body of the loop over [range(len(entity_split))]: the token of
    the reconstructed name at one position. [mask[i]] is a string of one
    character and is compared with the integer 0. *)
Fixpoint select_tokens (mask : list N) (entity_split entity_lemm_tokens : list pystr)
    : list pystr :=
  match mask, entity_split, entity_lemm_tokens with
  | m :: mask', tok :: split', lemm :: lemm' =>
      (if py_eq (PyStr [m]) (PyInt 0) then tok else lemm)
        :: select_tokens mask' split' lemm'
  | _, _, _ => []
  end.

(** The names that [find_candidate_entities] passes to [name_to_q.get],
    in the order of the calls. *)
Definition looked_up_names (lemmatize : bool) (entity : pystr) : list pystr :=
  let entity_split := split_space entity in
  entity ::
  (if bool_decide (length entity_split < 6)%nat && lemmatize then
     let entity_lemm_tokens := normal_form <$> entity_split in
     let masks := product (u "01") (length entity_split) in
     filter (λ entity_lemm, entity_lemm ≠ entity)
       ((λ mask, join_space (select_tokens mask entity_split entity_lemm_tokens))
          <$> masks)
   else []).

Definition find_candidate_entities (self : EntityLinker) (entity : pystr)
    : list Candidate :=
  name ← looked_up_names (lemmatize self) entity; dict_get (name_to_q self) name.

(** *** [substring_entity_search] *)

Fixpoint substring_loop (d : NameIndex) (entity_lower : pystr) (titles : list pystr)
    : list Candidate :=
  match titles with
  | [] => []
  | title :: rest =>
      (if bool_decide (str_find title entity_lower > -1) then dict_get d title else [])
        ++ substring_loop d entity_lower rest
  end.

Definition substring_entity_search (self : EntityLinker) (entity : pystr)
    : list Candidate :=
  let entity_lower := lower entity in
  substring_loop (name_to_q self) entity_lower (name_to_q self).*1.

(** *** [fuzzy_entity_search]

    Besides the candidates, the loop records every call of [fuzz.ratio],
    in the order of the calls: [ScoreTitle] for line 106, where a key of
    the index is scored against the entity, and [ScoreSurface] for line
    110, where the entity is scored against element 0 of a candidate. *)

Definition Scored : Type := Candidate * Z.

Fixpoint fuzzy_loop (d : NameIndex) (entity : pystr) (word_length : nat)
    (titles : list pystr) : result (list Scored * list ratio_call) :=
  match titles with
  | [] => Ok ([], [])
  | title :: rest =>
      length_ratio ← truediv (length title) word_length;
      let '(found, calls) :=
        if bool_decide (1 # 2 < length_ratio)%Q && bool_decide (length_ratio < 3 # 2)%Q
        then
          let ratio := fuzz_ratio title entity in
          if bool_decide (ratio > 50) then
            let entity_candidates := dict_get d title in
            ((λ cand, (cand, fuzz_ratio entity (surface cand))) <$> entity_candidates,
             ScoreTitle title entity
               :: ((λ cand, ScoreSurface entity (surface cand)) <$> entity_candidates))
          else ([], [ScoreTitle title entity])
        else ([], []) in
      '(found', calls') ← fuzzy_loop d entity word_length rest;
      Ok (found ++ found', calls ++ calls')
  end.

Definition fuzzy_entity_search_traced (self : EntityLinker) (entity : pystr)
    : result (list Scored * list ratio_call) :=
  let word_length := length entity in
  fuzzy_loop (name_to_q self) entity word_length (name_to_q self).*1.

Definition fuzzy_entity_search (self : EntityLinker) (entity : pystr)
    : result (list Scored) :=
  fst <$> fuzzy_entity_search_traced self entity.

(** *** [extract_triplets_from_wiki] *)

Fixpoint extract_triplets_from_wiki (self : EntityLinker) (entity_ids : list pystr)
    : list (list Fact) :=
  match entity_ids with
  | [] => []
  | entity_id :: rest =>
      (match wikidata self !! entity_id with
       | Some triplets_for_entity =>
           if startswith entity_id (u "Q") then triplets_for_entity else []
       | None => []
       end) :: extract_triplets_from_wiki self rest
  end.

(** *** [filter_triplets] *)

Definition what_is_templates : list pystr :=
  [u "что такое"; u "что есть"; u "что означает"; u "что значит"].

Definition property_is_instance_of : pystr := u "P31".
Definition id_for_entity_human : pystr := u "Q5".

(** The inner loop, which stops at the first triplet that matches. *)
Fixpoint entity_is_human (triplets_for_entity : list Fact) : bool :=
  match triplets_for_entity with
  | [] => false
  | triplet :: rest =>
      if bool_decide (triplet.1 = property_is_instance_of)
         && bool_decide (triplet.2 = id_for_entity_human)
      then true
      else entity_is_human rest
  end.

Fixpoint filter_loop (question_begin : pystr) (entity_triplets : list (list Fact))
    : list (list Fact) :=
  match entity_triplets with
  | [] => []
  | triplets_for_entity :: rest =>
      if bool_decide (question_begin ∈ what_is_templates)
         && entity_is_human triplets_for_entity
      then filter_loop question_begin rest
      else triplets_for_entity :: filter_loop question_begin rest
  end.

Definition filter_triplets (entity_triplets : list (list Fact))
    (question_tokens : list pystr) : result (list (list Fact)) :=
  tok0 ← getitem question_tokens 0;
  tok1 ← getitem question_tokens 1;
  let question_begin := lower tok0 ++ u " " ++ lower tok1 in
  Ok (filter_loop question_begin entity_triplets).

(** *** [__call__]

    Lines 36 to 68: the identifiers and the confidences. The logging under
    [self.debug] has no effect on the result and is left out. *)
Definition link_entities (self : EntityLinker) (entity : pystr)
    : result (list pystr * list Q) :=
  if bool_decide (entity = []) then Ok ([u "None"], [])
  else
    let candidate_entities := find_candidate_entities self entity in
    let srtd_cand_ent := sorted_desc rank candidate_entities in
    if bool_decide (0 < length srtd_cand_ent)%nat then
      Ok (ident <$> srtd_cand_ent, (λ _, 1%Q) <$> srtd_cand_ent)
    else
      let candidates := substring_entity_search self entity in
      let candidates := list_of_set candidates in
      let srtd_cand_ent := sorted_desc rank candidates in
      if bool_decide (0 < length srtd_cand_ent)%nat then
        Ok (ident <$> srtd_cand_ent, [])
      else
        candidates ← fuzzy_entity_search self entity;
        let candidates := list_of_set candidates in
        let srtd_cand_ent := sorted_desc snd candidates in
        if bool_decide (0 < length srtd_cand_ent)%nat then
          Ok ((λ x, ident x.1) <$> srtd_cand_ent,
              (λ x, inject_Z x.2 * (1 # 100))%Q <$> srtd_cand_ent)
        else Ok ([u "None"], [0%Q]).

(** Lines 36 to 68 again, with the confidences as the doubles that the
    interpreter computes: the literals [1.0] and [0.0], and the product
    [float(score) * 0.01] of line 65. *)
Definition link_entities_double (self : EntityLinker) (entity : pystr)
    : result (list pystr * list float) :=
  if bool_decide (entity = []) then Ok ([u "None"], [])
  else
    let candidate_entities := find_candidate_entities self entity in
    let srtd_cand_ent := sorted_desc rank candidate_entities in
    if bool_decide (0 < length srtd_cand_ent)%nat then
      Ok (ident <$> srtd_cand_ent, (λ _, 1%float) <$> srtd_cand_ent)
    else
      let candidates := substring_entity_search self entity in
      let candidates := list_of_set candidates in
      let srtd_cand_ent := sorted_desc rank candidates in
      if bool_decide (0 < length srtd_cand_ent)%nat then
        Ok (ident <$> srtd_cand_ent, [])
      else
        candidates ← fuzzy_entity_search self entity;
        let candidates := list_of_set candidates in
        let srtd_cand_ent := sorted_desc snd candidates in
        if bool_decide (0 < length srtd_cand_ent)%nat then
          Ok ((λ x, ident x.1) <$> srtd_cand_ent,
              (λ x, float_of_int x.2 * one_hundredth)%float <$> srtd_cand_ent)
        else Ok ([u "None"], [0%float]).

(** Lines 36 to 70: the triplets of the identifiers, before any filter,
    with the confidences. *)
Definition entity_triplets_of (self : EntityLinker) (entity : pystr)
    : result (list (list Fact) * list Q) :=
  '(wiki_entities, confidences) ← link_entities self entity;
  Ok (extract_triplets_from_wiki self wiki_entities, confidences).

(** The whole method. The local variable [filtered_entity_triplets] is
    bound only by the assignment under [if self.rule_filter_entities], so
    it is an [option] here, and reading it unbound raises. *)
Definition __call__ (self : EntityLinker) (entity : pystr)
    (question_tokens : list pystr) : result (list (list Fact) * list Q) :=
  '(entity_triplets, confidences) ← entity_triplets_of self entity;
  filtered_entity_triplets ←
    (if rule_filter_entities self
     then Some <$> filter_triplets entity_triplets question_tokens
     else Ok None);
  match filtered_entity_triplets with
  | Some filtered => Ok (filtered, confidences)
  | None => Raise UnboundLocalError
  end.

End Methods.

(** ** A concrete instance of the imported libraries

    Stand-ins that compute, used to run the methods on concrete inputs:
    [lower] on the Latin and Cyrillic capitals, the normal forms of a few
    Russian word forms as [pymorphy2] gives them, a similarity that counts
    the positions at which two strings agree, and the first occurrences as
    the order of a set. *)
Module Sample.

Definition lower_char (c : N) : N :=
  if ((65 <=? c) && (c <=? 90) || (1040 <=? c) && (c <=? 1071))%N
  then (c + 32)%N else c.

Definition normal_forms : list (pystr * pystr) :=
  [(u "озера", u "озеро"); (u "Байкал", u "байкал"); (u "кошки", u "кошка")].

Fixpoint assoc (table : list (pystr * pystr)) (tok : pystr) : pystr :=
  match table with
  | [] => tok
  | (form, lemma) :: table' =>
      if bool_decide (form = tok) then lemma else assoc table' tok
  end.

Fixpoint agree (a b : pystr) : nat :=
  match a, b with
  | x :: a', y :: b' => (if bool_decide (x = y) then 1 else 0) + agree a' b'
  | _, _ => 0
  end.

Definition ratio (a b : pystr) : Z :=
  match a, b with
  | [], [] => 100
  | _, _ => (200 * Z.of_nat (agree a b)) `div` Z.of_nat (length a + length b)
  end.

Global Instance externals : Externals := {|
  lower := fmap lower_char;
  normal_form := assoc normal_forms;
  fuzz_ratio := ratio;
  list_of_set := λ A H l, remove_dups l
|}.

(** Inputs on which the methods are run below. *)

Definition lake : Candidate := mkCandidate (u "озеро Байкал") (u "Q5513") 7.
Definition cat : Candidate := mkCandidate (u "кошка") (u "Q146") 3.
Definition pushkin : Candidate := mkCandidate (u "пушкин") (u "Q7200") 9.
Definition pushkino : Candidate := mkCandidate (u "пушкино") (u "Q143579") 2.

Definition facts : gmap pystr (list Fact) :=
  {[ u "Q5513" := [(u "P31", u "Q23397"); (u "P17", u "Q159")];
     u "Q146" := [(u "P31", u "Q55983715")];
     u "Q7200" := [(u "P106", u "Q49757"); (u "P31", u "Q5")];
     u "Q143579" := [(u "P31", u "Q7930989")];
     u "None" := [(u "P31", u "Q5")];
     u "P31" := [(u "P31", u "Q18616576")] ]}.

Definition index : NameIndex :=
  [(u "озеро Байкал", [lake]); (u "кошка", [cat]);
   (u "пушкин", [pushkin]); (u "пушкино", [pushkino])].

(** [EntityLinker(index, facts)] with the default arguments, and the same
    with [rule_filter_entities=False]. *)
Definition linker : EntityLinker := mkEntityLinker index facts true false true.
Definition linker_unfiltered : EntityLinker :=
  mkEntityLinker index facts true false false.

(** A second index: a key with two candidates of increasing rank, a key
    that is the plural of another key, and a candidate whose element 0 is
    not the key it is stored under. *)
Definition cat_film : Candidate := mkCandidate (u "кошка") (u "Q4233718") 8.
Definition cats_musical : Candidate := mkCandidate (u "кошки") (u "Q131186") 5.
Definition pushkin_full : Candidate :=
  mkCandidate (u "александр пушкин") (u "Q7200") 9.

Definition index2 : NameIndex :=
  [(u "кошка", [cat; cat_film]); (u "кошки", [cats_musical]);
   (u "пушкин", [pushkin_full])].

(** [EntityLinker(index2, facts)], and the same with [lemmatize=False]. *)
Definition linker2 : EntityLinker := mkEntityLinker index2 facts true false true.
Definition linker2_plain : EntityLinker :=
  mkEntityLinker index2 facts false false true.

End Sample.

(** * Properties *)

(** ** The stand-ins satisfy the contract of the libraries *)

Lemma Sample_agree_le a b : (2 * Sample.agree a b ≤ length a + length b)%nat.
Proof.
  revert b. induction a as [|x a IH]; intros [|y b]; simpl; try lia.
  specialize (IH b). case_bool_decide; lia.
Qed.

Lemma Sample_ratio_range a b : 0 ≤ Sample.ratio a b ≤ 100.
Proof.
  assert (H := Sample_agree_le a b). unfold Sample.ratio.
  destruct a as [|x a], b as [|y b]; try lia;
    (split; [apply Z.div_pos; simpl in *; lia
            | apply Z.div_le_upper_bound; simpl in *; lia]).
Qed.

Global Instance Sample_externals_ok : ExternalsOk Sample.externals.
Proof.
  split.
  - apply Sample_ratio_range.
  - intros A H l. apply NoDup_remove_dups.
  - intros A H l x. apply elem_of_remove_dups.
Qed.

(** ** The model on small inputs *)

Example utf8_decode_template :
  u "что такое" = [1095; 1090; 1086; 32; 1090; 1072; 1082; 1086; 1077]%N.
Proof. reflexivity. Qed.

Example split_space_double : split_space (u "a  b") = [u "a"; u ""; u "b"].
Proof. reflexivity. Qed.

Example product_order : product (u "01") 2 = [u "00"; u "01"; u "10"; u "11"].
Proof. reflexivity. Qed.

Example str_find_inside : str_find (u "озеро байкал") (u "байкал") = 6.
Proof. reflexivity. Qed.

Example str_find_absent : str_find (u "озеро Байкал") (u "байкал") = -1.
Proof. reflexivity. Qed.

(** Elements of equal key keep their order, also under [reverse=True]. *)
Example sorted_desc_stable :
  sorted_desc snd [(u "a", 1); (u "b", 2); (u "c", 1); (u "d", 2)]
  = [(u "b", 2); (u "d", 2); (u "a", 1); (u "c", 1)].
Proof. reflexivity. Qed.

(** A question that starts with a template prunes the human candidate and
    keeps its confidence; any other question keeps its facts. *)
Example call_prunes_human :
  __call__ Sample.linker (u "пушкин") [u "Что"; u "такое"; u "пушкин"]
  = Ok ([], [1%Q]).
Proof. reflexivity. Qed.

Example call_keeps_human :
  __call__ Sample.linker (u "пушкин") [u "Кто"; u "такой"; u "пушкин"]
  = Ok ([[(u "P106", u "Q49757"); (u "P31", u "Q5")]], [1%Q]).
Proof. reflexivity. Qed.

(** The fuzzy tier on a misspelt entity. *)
Example call_fuzzy :
  link_entities Sample.linker (u "пушкен")
  = Ok ([u "Q7200"; u "Q143579"], [83 # 100; 76 # 100]).
Proof. reflexivity. Qed.

(** ** Strings *)

Lemma split_space_nonempty s : split_space s ≠ [].
Proof.
  destruct s as [|c s]; simpl; [done|].
  destruct (c =? 32)%N; [done|]. by destruct (split_space s).
Qed.

(** Joining the words of a split string gives the string back: the mask
    that keeps every original token would rebuild the entity. *)
Lemma join_split_space s : join_space (split_space s) = s.
Proof.
  induction s as [|c s IH]; simpl; [done|].
  destruct (c =? 32)%N eqn:Hc.
  - apply N.eqb_eq in Hc as ->.
    pose proof (split_space_nonempty s) as Hne.
    destruct (split_space s) as [|w ws]; [done|].
    change (join_space ([] :: w :: ws)) with (32%N :: join_space (w :: ws)).
    by rewrite IH.
  - destruct (split_space s) as [|w ws] eqn:Hs; [by subst|].
    rewrite <- IH. by destruct ws.
Qed.

(** ** Sorting *)

Lemma insert_desc_Permutation {A} (key : A → Z) x l : insert_desc key x l ≡ₚ x :: l.
Proof.
  induction l as [|y l IH]; simpl; [done|].
  destruct (key x <? key y); [|done].
  rewrite IH. apply Permutation_swap.
Qed.

Lemma sorted_desc_Permutation {A} (key : A → Z) l : sorted_desc key l ≡ₚ l.
Proof.
  induction l as [|x l IH]; simpl; [done|].
  by rewrite insert_desc_Permutation, IH.
Qed.

Lemma sorted_desc_length {A} (key : A → Z) l : length (sorted_desc key l) = length l.
Proof. by rewrite sorted_desc_Permutation. Qed.

Lemma sorted_desc_NoDup {A} (key : A → Z) l : NoDup l → NoDup (sorted_desc key l).
Proof. by rewrite sorted_desc_Permutation. Qed.

(** ** The fact retriever *)

Lemma extract_triplets_from_wiki_length (self : EntityLinker)
    (entity_ids : list pystr) :
  length (extract_triplets_from_wiki self entity_ids) = length entity_ids.
Proof. induction entity_ids as [|e l IH]; simpl; [done | by rewrite IH]. Qed.

(** C7. [extract_triplets_from_wiki] returns a list as long as its argument;
    at every position it holds the triplets that [wikidata] stores for the
    identifier of that position when the identifier is a key of [wikidata]
    and starts with Q, and the empty list when the identifier is not a key
    or does not start with Q. *)
Theorem extract_triplets_from_wiki_aligned (self : EntityLinker)
    (entity_ids : list pystr) :
  length (extract_triplets_from_wiki self entity_ids) = length entity_ids ∧
  ∀ (i : nat) (entity_id : pystr),
    entity_ids !! i = Some entity_id →
    (∀ triplets, wikidata self !! entity_id = Some triplets →
       u "Q" `prefix_of` entity_id →
       extract_triplets_from_wiki self entity_ids !! i = Some triplets) ∧
    (wikidata self !! entity_id = None ∨ ¬ u "Q" `prefix_of` entity_id →
       extract_triplets_from_wiki self entity_ids !! i = Some []).
Proof.
  split.
  - apply extract_triplets_from_wiki_length.
  - induction entity_ids as [|e l IH]; intros i entity_id Hi; [done|].
    destruct i as [|i]; simpl in *; [|by apply IH].
    injection Hi as ->. unfold startswith. split.
    + intros triplets -> HQ. by rewrite bool_decide_eq_true_2.
    + intros [-> | HQ]; [done|].
      destruct (wikidata self !! entity_id); [|done].
      by rewrite bool_decide_eq_false_2.
Qed.

(** The list of an identifier that is a key of the store but does not start
    with Q, next to one that does: only the second has its triplets. *)
Lemma extract_triplets_from_wiki_aligned_witness :
  length (extract_triplets_from_wiki Sample.linker [u "P31"; u "Q146"]) = 2%nat ∧
  extract_triplets_from_wiki Sample.linker [u "P31"; u "Q146"] !! 0%nat = Some [] ∧
  extract_triplets_from_wiki Sample.linker [u "P31"; u "Q146"] !! 1%nat
    = Some [(u "P31", u "Q55983715")].
Proof.
  destruct (extract_triplets_from_wiki_aligned Sample.linker [u "P31"; u "Q146"])
    as [Hlen Hpos].
  split; [exact Hlen|]. split.
  - apply (Hpos 0%nat (u "P31")); [reflexivity|].
    right. vm_compute. intros [k Hk]. discriminate Hk.
  - apply (Hpos 1%nat (u "Q146")); [reflexivity | reflexivity |].
    exists (u "146"). reflexivity.
Defined.

(** ** The plausibility filter *)

Section Filter.
Context {E : Externals}.

Lemma entity_is_human_spec (triplets : list Fact) :
  entity_is_human triplets = true ↔ (u "P31", u "Q5") ∈ triplets.
Proof.
  induction triplets as [|[p v] l IH]; simpl.
  - split; [done | by intros ?%elem_of_nil].
  - rewrite elem_of_cons.
    destruct (decide (p = property_is_instance_of)) as [->|Hp],
             (decide (v = id_for_entity_human)) as [->|Hv].
    + rewrite !bool_decide_eq_true_2 by done. simpl. split; [by left | done].
    + rewrite (bool_decide_eq_false_2 (v = _)) by done.
      rewrite andb_false_r, IH. split; [by right | intros [[=] | ?]; done].
    + rewrite (bool_decide_eq_false_2 (p = _)) by done. simpl.
      rewrite IH. split; [by right | intros [[=] | ?]; done].
    + rewrite (bool_decide_eq_false_2 (p = _)) by done. simpl.
      rewrite IH. split; [by right | intros [[=] | ?]; done].
Qed.

Lemma filter_loop_filter (question_begin : pystr) (entity_triplets : list (list Fact)) :
  filter_loop question_begin entity_triplets =
  filter (λ triplets, ¬ (question_begin ∈ what_is_templates
                         ∧ (u "P31", u "Q5") ∈ triplets)) entity_triplets.
Proof.
  induction entity_triplets as [|t l IH]; simpl; [done|].
  rewrite IH. destruct (decide (question_begin ∈ what_is_templates)) as [Hq|Hq].
  - rewrite bool_decide_eq_true_2 by done. simpl.
    destruct (entity_is_human t) eqn:Hh.
    + apply entity_is_human_spec in Hh. rewrite filter_cons_False; tauto.
    + rewrite filter_cons_True; [done|].
      intros [_ Hin]. apply entity_is_human_spec in Hin. congruence.
  - rewrite bool_decide_eq_false_2 by done. simpl.
    rewrite filter_cons_True; tauto.
Qed.

End Filter.

(** C6. Given at least two question tokens, [filter_triplets] returns the
    fact lists of its argument, in their order and unchanged, except those
    for which the lowercased first two tokens joined by a space are one of
    the templates and the list contains the fact (P31, Q5): these, and only
    these, are dropped. *)
Theorem filter_triplets_drops_humans {E : Externals}
    (entity_triplets : list (list Fact)) (tok0 tok1 : pystr) (rest : list pystr) :
  filter_triplets entity_triplets (tok0 :: tok1 :: rest) =
  Ok (filter (λ triplets, ¬ (lower tok0 ++ u " " ++ lower tok1 ∈ what_is_templates
                             ∧ (u "P31", u "Q5") ∈ triplets)) entity_triplets).
Proof. unfold filter_triplets. simpl. by rewrite filter_loop_filter. Qed.

(** ** Which statements return and which raise *)

Section Returns.
Context {E : Externals}.

Lemma truediv_pos (a b : nat) :
  b ≠ 0%nat → truediv a b = Ok (Z.of_nat a # Pos.of_nat b).
Proof. by destruct b. Qed.

Lemma fuzzy_loop_returns d entity word_length titles :
  word_length ≠ 0%nat → returns (fuzzy_loop d entity word_length titles).
Proof.
  intros Hw. induction titles as [|title rest [[found' calls'] IH]]; simpl.
  - by eexists.
  - rewrite truediv_pos, IH by done. simpl.
    match goal with |- context [let '(_, _) := ?b in _] => destruct b end.
    by eexists.
Qed.

Lemma fuzzy_entity_search_returns self entity :
  entity ≠ [] → returns (fuzzy_entity_search self entity).
Proof.
  intros Hne. unfold fuzzy_entity_search, fuzzy_entity_search_traced.
  destruct (fuzzy_loop_returns (name_to_q self) entity (length entity)
              (name_to_q self).*1) as [a ->].
  - by destruct entity.
  - by eexists.
Qed.

Lemma link_entities_returns self entity : returns (link_entities self entity).
Proof.
  unfold link_entities. case_bool_decide as Hentity; [by eexists|].
  case_bool_decide; [by eexists|].
  case_bool_decide; [by eexists|].
  destruct (fuzzy_entity_search_returns self entity Hentity) as [found ->].
  simpl. case_bool_decide; by eexists.
Qed.

Lemma entity_triplets_of_returns self entity :
  returns (entity_triplets_of self entity).
Proof.
  unfold entity_triplets_of.
  destruct (link_entities_returns self entity) as [[ids confs] ->].
  by eexists.
Qed.

Lemma filter_triplets_returns entity_triplets question_tokens :
  (2 ≤ length question_tokens)%nat →
  returns (filter_triplets entity_triplets question_tokens).
Proof.
  destruct question_tokens as [|tok0 [|tok1 rest]]; simpl; try lia.
  intros _. by eexists.
Qed.

Lemma filter_triplets_raises entity_triplets question_tokens :
  (length question_tokens < 2)%nat →
  filter_triplets entity_triplets question_tokens = Raise IndexError.
Proof.
  destruct question_tokens as [|tok0 [|tok1 rest]]; simpl; try lia; done.
Qed.

End Returns.

(** Called on its own with the empty string, [fuzzy_entity_search] does
    divide by zero as soon as the index has a key. *)
Example fuzzy_entity_search_empty_entity :
  fuzzy_entity_search Sample.linker (u "") = Raise ZeroDivisionError.
Proof. reflexivity. Qed.

(** C10. Whatever the entity, [__call__] computes the identifiers and the
    confidences without an exception (the empty entity takes the first
    branch, and [fuzzy_entity_search] runs on a non-empty entity only), and
    the whole call never ends in a division by zero. *)
Theorem call_never_divides_by_zero {E : Externals} (self : EntityLinker)
    (entity : pystr) (question_tokens : list pystr) :
  returns (link_entities self entity) ∧
  __call__ self entity question_tokens ≠ Raise ZeroDivisionError.
Proof.
  split; [apply link_entities_returns|].
  unfold __call__.
  destruct (entity_triplets_of_returns self entity) as [[triplets confs] ->].
  simpl. destruct (rule_filter_entities self); [|done].
  destruct (decide (2 ≤ length question_tokens)%nat) as [Hlen|Hlen].
  - by destruct (filter_triplets_returns triplets question_tokens Hlen) as [a ->].
  - by rewrite filter_triplets_raises by lia.
Qed.

(** ** The orchestrator and the switch of the filter *)

(** C1. With [rule_filter_entities] false, every call of [__call__] raises
    [UnboundLocalError] at the [return]: [filtered_entity_triplets] was
    never assigned. No unfiltered fact list is returned. *)
Theorem call_unfiltered_raises {E : Externals} (self : EntityLinker)
    (entity : pystr) (question_tokens : list pystr) :
  rule_filter_entities self = false →
  __call__ self entity question_tokens = Raise UnboundLocalError.
Proof.
  intros Hoff. unfold __call__.
  destruct (entity_triplets_of_returns self entity) as [[triplets confs] ->].
  simpl. by rewrite Hoff.
Qed.

Lemma call_unfiltered_raises_witness :
  __call__ Sample.linker_unfiltered (u "кошка") [u "что"; u "такое"; u "кошка"]
  = Raise UnboundLocalError.
Proof. apply call_unfiltered_raises. reflexivity. Defined.

(** C4. [__call__] raises [IndexError] exactly when the filter is enabled
    and there are fewer than two question tokens; it raises
    [UnboundLocalError] exactly when the filter is disabled, whatever the
    tokens; and it returns exactly when the filter is enabled and there are
    at least two tokens. So the short question is not the only failure. *)
Theorem call_failures {E : Externals} (self : EntityLinker)
    (entity : pystr) (question_tokens : list pystr) :
  (__call__ self entity question_tokens = Raise IndexError ↔
     rule_filter_entities self = true ∧ (length question_tokens < 2)%nat) ∧
  (__call__ self entity question_tokens = Raise UnboundLocalError ↔
     rule_filter_entities self = false) ∧
  (returns (__call__ self entity question_tokens) ↔
     rule_filter_entities self = true ∧ (2 ≤ length question_tokens)%nat).
Proof.
  unfold __call__.
  destruct (entity_triplets_of_returns self entity) as [[triplets confs] ->].
  simpl. destruct (rule_filter_entities self); simpl.
  - destruct (decide (2 ≤ length question_tokens)%nat) as [Hlen|Hlen].
    + destruct (filter_triplets_returns triplets question_tokens Hlen) as [a ->].
      simpl. unfold returns. split_and!; split; first [by eauto | intros [_ ?]; lia | done].
    + rewrite filter_triplets_raises by lia. simpl.
      unfold returns.
      split_and!; split;
        first [done | intros [_ ?]; lia | by intros [? ?] | by split; [|lia]].
  - unfold returns. split_and!; split; first [done | by intros [? ?]].
Qed.

Lemma call_failures_witness :
  __call__ Sample.linker (u "кошка") [u "кошка"] = Raise IndexError ∧
  __call__ Sample.linker_unfiltered (u "кошка") [u "что"; u "такое"]
    = Raise UnboundLocalError ∧
  returns (__call__ Sample.linker (u "кошка") [u "что"; u "такое"]).
Proof.
  split; [|split].
  - apply (call_failures Sample.linker). split; [reflexivity | simpl; lia].
  - apply (call_failures Sample.linker_unfiltered). reflexivity.
  - apply (call_failures Sample.linker). split; [reflexivity | simpl; lia].
Defined.

(** C5. On the empty entity and at least two question tokens, [__call__]
    returns the single empty fact list with no confidence when the filter
    is enabled, and raises [UnboundLocalError] when it is disabled. *)
Theorem call_empty_entity {E : Externals} (self : EntityLinker)
    (question_tokens : list pystr) :
  (2 ≤ length question_tokens)%nat →
  __call__ self [] question_tokens =
    if rule_filter_entities self then Ok ([[]], []) else Raise UnboundLocalError.
Proof.
  intros Hlen. unfold __call__, entity_triplets_of, link_entities. simpl.
  destruct (rule_filter_entities self); [|done].
  destruct question_tokens as [|tok0 [|tok1 rest]]; simpl in Hlen; try lia.
  unfold filter_triplets. simpl.
  destruct (wikidata self !! u "None"); simpl; by rewrite andb_false_r.
Qed.

Lemma call_empty_entity_witness :
  __call__ Sample.linker (u "") [u "что"; u "такое"] = Ok ([[]], []) ∧
  __call__ Sample.linker_unfiltered (u "") [u "что"; u "такое"]
    = Raise UnboundLocalError.
Proof.
  split.
  - apply (call_empty_entity Sample.linker). simpl. lia.
  - apply (call_empty_entity Sample.linker_unfiltered). simpl. lia.
Defined.

(** ** Tier 3: what the fuzzy search scores, accepts and reports *)

Section FuzzySpec.
Context {E : Externals}.

(** The loop in closed form: what one key contributes to the candidates
    and to the calls. *)
Lemma fuzzy_loop_closed d entity titles :
  entity ≠ [] →
  fuzzy_loop d entity (length entity) titles =
  Ok (title ← titles;
        (if bool_decide (1 # 2 < len_ratio title entity)%Q
            && bool_decide (len_ratio title entity < 3 # 2)%Q
            && bool_decide (fuzz_ratio title entity > 50)
         then (λ cand, (cand, fuzz_ratio entity (surface cand))) <$> dict_get d title
         else []),
      title ← titles;
        (if bool_decide (1 # 2 < len_ratio title entity)%Q
            && bool_decide (len_ratio title entity < 3 # 2)%Q
         then ScoreTitle title entity ::
              (if bool_decide (fuzz_ratio title entity > 50)
               then (λ cand, ScoreSurface entity (surface cand)) <$> dict_get d title
               else [])
         else [])).
Proof.
  intros Hne. assert (length entity ≠ 0%nat) as Hlen by by destruct entity.
  induction titles as [|title rest IH]; [done|].
  cbn [fuzzy_loop]. rewrite truediv_pos, IH by done.
  fold (len_ratio title entity). cbn [mbind result_bind].
  rewrite !bind_cons.
  destruct (bool_decide (1 # 2 < len_ratio title entity)%Q); [|done].
  destruct (bool_decide (len_ratio title entity < 3 # 2)%Q); [|done].
  by destruct (bool_decide (fuzz_ratio title entity > 50)).
Qed.

Lemma fuzzy_loop_spec d entity titles found calls :
  entity ≠ [] →
  fuzzy_loop d entity (length entity) titles = Ok (found, calls) →
  (∀ cand s, (cand, s) ∈ found ↔
     ∃ title, title ∈ titles
       ∧ (1 # 2 < len_ratio title entity)%Q
       ∧ (len_ratio title entity < 3 # 2)%Q
       ∧ fuzz_ratio title entity > 50
       ∧ cand ∈ dict_get d title
       ∧ s = fuzz_ratio entity (surface cand)) ∧
  (∀ title, ScoreTitle title entity ∈ calls ↔
     title ∈ titles
       ∧ (1 # 2 < len_ratio title entity)%Q
       ∧ (len_ratio title entity < 3 # 2)%Q).
Proof.
  intros Hne. rewrite fuzzy_loop_closed by done. intros [= <- <-]. split.
  - intros cand s. rewrite list_elem_of_bind. split.
    + intros (title & Hin & Htitle). exists title.
      destruct (bool_decide (1 # 2 < _)%Q) eqn:Hlo;
        [|by apply elem_of_nil in Hin].
      destruct (bool_decide (_ < 3 # 2)%Q) eqn:Hhi;
        [|by apply elem_of_nil in Hin].
      destruct (bool_decide (_ > 50)) eqn:Hr; [|by apply elem_of_nil in Hin].
      apply bool_decide_eq_true_1 in Hlo, Hhi, Hr. simpl in Hin.
      apply list_elem_of_fmap in Hin as (cand' & [= -> ->] & Hcand). done.
    + intros (title & Htitle & Hlo & Hhi & Hr & Hcand & ->). exists title.
      split; [|done]. rewrite !bool_decide_eq_true_2 by done. simpl.
      apply list_elem_of_fmap. by exists cand.
  - intros title. rewrite list_elem_of_bind. split.
    + intros (title' & Hin & Htitle).
      destruct (bool_decide (1 # 2 < _)%Q) eqn:Hlo;
        [|by apply elem_of_nil in Hin].
      destruct (bool_decide (_ < 3 # 2)%Q) eqn:Hhi;
        [|by apply elem_of_nil in Hin].
      apply bool_decide_eq_true_1 in Hlo, Hhi. simpl in Hin.
      apply elem_of_cons in Hin as [[= <-] | Hin]; [done|].
      destruct (bool_decide (_ > 50)); [|by apply elem_of_nil in Hin].
      by apply list_elem_of_fmap in Hin as (? & [=] & _).
    + intros (Htitle & Hlo & Hhi). exists title. split; [|done].
      rewrite !bool_decide_eq_true_2 by done. simpl. by left.
Qed.

End FuzzySpec.

(** ** The order of a set *)

Section SetOrder.
Context {E : Externals} {HE : ExternalsOk E}.

Lemma list_of_set_nil {A} `{EqDecision A} : list_of_set (@nil A) = [].
Proof.
  destruct (list_of_set (@nil A)) as [|x l] eqn:Hl; [done|].
  assert (x ∈ list_of_set (@nil A)) as Hx by (rewrite Hl; by left).
  apply list_of_set_elem in Hx. by apply elem_of_nil in Hx.
Qed.

Lemma list_of_set_nonempty {A} `{EqDecision A} (l : list A) :
  l ≠ [] → list_of_set l ≠ [].
Proof.
  destruct l as [|x l]; [done|]. intros _ Hnil.
  assert (x ∈ list_of_set (x :: l)) as Hx by (apply list_of_set_elem; by left).
  rewrite Hnil in Hx. by apply elem_of_nil in Hx.
Qed.

Lemma list_of_set_length_pos {A} `{EqDecision A} (l : list A) :
  l ≠ [] → (0 < length (list_of_set l))%nat.
Proof.
  intros Hl%list_of_set_nonempty.
  destruct (list_of_set l); [done | simpl; lia].
Qed.

End SetOrder.

(** ** Confidences of the fuzzy tier *)

Lemma confidence_range (score : Z) :
  0 ≤ score ≤ 100 →
  (0 <= inject_Z score * (1 # 100))%Q ∧ (inject_Z score * (1 # 100) <= 1)%Q.
Proof. intros Hs. unfold Qle. simpl. lia. Qed.

(** The double precision version differs from [link_entities] in the
    confidences only: the identifiers are the same and there are as many
    confidences. *)
Lemma link_entities_double_identifiers {E : Externals} (self : EntityLinker)
    (entity : pystr) :
  ∃ wiki_entities confidences doubles,
    link_entities self entity = Ok (wiki_entities, confidences) ∧
    link_entities_double self entity = Ok (wiki_entities, doubles) ∧
    length doubles = length confidences.
Proof.
  unfold link_entities, link_entities_double.
  case_bool_decide as Hentity; [by eexists _, _, _|].
  case_bool_decide.
  { eexists _, _, _. split; [done|]. split; [done|]. by rewrite !length_fmap. }
  case_bool_decide; [by eexists _, _, _|].
  destruct (fuzzy_entity_search_returns self entity Hentity) as [found ->].
  simpl. case_bool_decide; [|by eexists _, _, _].
  eexists _, _, _. split; [done|]. split; [done|]. by rewrite !length_fmap.
Qed.

(** The product of line 65 on the scores that [fuzz.ratio] can give: it
    lies between 0.0 and 1.0 and is at most 2^-53 away from the quotient
    [float(score) / 100]. The 101 scores are checked one by one. *)
Lemma double_confidence_range (score : Z) :
  0 ≤ score ≤ 100 →
  (0 <=? float_of_int score * one_hundredth)%float = true ∧
  (float_of_int score * one_hundredth <=? 1)%float = true ∧
  (abs (float_of_int score * one_hundredth - float_of_int score / 100)
     <=? 0x1p-53)%float = true.
Proof.
  intros Hs.
  assert (forallb
            (λ s, (0 <=? float_of_int s * one_hundredth)%float
                  && (float_of_int s * one_hundredth <=? 1)%float
                  && (abs (float_of_int s * one_hundredth - float_of_int s / 100)
                        <=? 0x1p-53)%float)
            (List.map Z.of_nat (seq 0 101)) = true) as Hall
    by (vm_compute; reflexivity).
  rewrite forallb_forall in Hall. specialize (Hall score).
  destruct (andb_prop _ _ (Hall ltac:(apply in_map_iff; exists (Z.to_nat score);
                                      split; [lia | apply in_seq; lia])))
    as [Hlo_hi Hnear].
  apply andb_prop in Hlo_hi as [Hlo Hhi]. done.
Qed.

(** C8, refuted as stated. The fuzzy tier answers «пушкен» with the
    candidate «пушкин», whose second similarity is 83; the confidence
    returned is the double [float(83) * 0.01], which is not the double
    [83 / 100] (Python prints 0.8300000000000001 and 0.83). *)
Lemma fuzzy_confidence_not_score_over_100 :
  fuzz_ratio (Externals := Sample.externals) (u "пушкен") (surface Sample.pushkin)
    = 83 ∧
  link_entities_double Sample.linker (u "пушкен")
    = Ok ([u "Q7200"; u "Q143579"],
          [(float_of_int 83 * one_hundredth)%float;
           (float_of_int 76 * one_hundredth)%float]) ∧
  (float_of_int 83 * one_hundredth)%float ≠ (float_of_int 83 / 100)%float.
Proof.
  split; [reflexivity|]. split; [reflexivity|].
  intros Heq.
  apply (f_equal (λ x, PrimFloat.eqb x (float_of_int 83 / 100))) in Heq.
  vm_compute in Heq. discriminate Heq.
Qed.

(** C8, as amended. For a non-empty entity, [fuzzy_entity_search] returns
    and
    - calls [fuzz.ratio] on no key whose length divided by the length of the
      entity is at most 0.5 or at least 1.5;
    - yields the pair of a candidate and a score exactly when the candidate
      is listed under a key of the index whose length ratio lies strictly
      between 0.5 and 1.5 and whose similarity to the entity exceeds 50, the
      score being the similarity of the entity and element 0 of the
      candidate, not the similarity of the key;
    - when the first two tiers found nothing and the fuzzy search found
      something, [__call__] computes one identifier and one confidence for
      each pair found, and the confidence of a pair is the double product
      [float(score) * 0.01] of that second similarity: it lies between 0.0
      and 1.0 and is within 2^-53 of [score / 100], without being equal to
      it in general. *)
Theorem fuzzy_tier_scores_and_confidences {E : Externals} {HE : ExternalsOk E}
    (self : EntityLinker) (entity : pystr) :
  entity ≠ [] →
  ∃ (found : list (Candidate * Z)) calls,
    fuzzy_entity_search_traced self entity = Ok (found, calls) ∧
    (∀ title,
       (len_ratio title entity <= 1 # 2 ∨ 3 # 2 <= len_ratio title entity)%Q →
       ScoreTitle title entity ∉ calls) ∧
    (∀ cand score, (cand, score) ∈ found ↔
       ∃ title, title ∈ (name_to_q self).*1
         ∧ (1 # 2 < len_ratio title entity)%Q
         ∧ (len_ratio title entity < 3 # 2)%Q
         ∧ fuzz_ratio title entity > 50
         ∧ cand ∈ dict_get (name_to_q self) title
         ∧ score = fuzz_ratio entity (surface cand)) ∧
    (find_candidate_entities self entity = [] →
     substring_entity_search self entity = [] →
     found ≠ [] →
     ∃ srtd : list (Candidate * Z),
       srtd ≠ [] ∧
       (∀ pair, pair ∈ srtd ↔ pair ∈ found) ∧
       link_entities_double self entity
         = Ok ((λ x, ident x.1) <$> srtd,
               (λ x, float_of_int x.2 * one_hundredth)%float <$> srtd) ∧
       Forall (λ x,
           x.2 = fuzz_ratio entity (surface x.1)
           ∧ (0 <=? float_of_int x.2 * one_hundredth)%float = true
           ∧ (float_of_int x.2 * one_hundredth <=? 1)%float = true
           ∧ (abs (float_of_int x.2 * one_hundredth - float_of_int x.2 / 100)
                <=? 0x1p-53)%float = true) srtd).
Proof.
  intros Hne.
  destruct (fuzzy_loop_returns (name_to_q self) entity (length entity)
              (name_to_q self).*1) as [[found calls] Hloop]; [by destruct entity|].
  exists found, calls.
  destruct (fuzzy_loop_spec _ _ _ _ _ Hne Hloop) as [Hfound Hcalls].
  split_and!; [done| |done|].
  - intros title Hout Hin. apply Hcalls in Hin as (_ & Hlo & Hhi).
    destruct Hout as [Hout|Hout].
    + by apply Qlt_not_le in Hlo.
    + by apply Qlt_not_le in Hhi.
  - intros Htier1 Htier2 Hsome.
    unfold link_entities_double, fuzzy_entity_search, fuzzy_entity_search_traced.
    rewrite bool_decide_eq_false_2 by done.
    rewrite Htier1, Htier2, list_of_set_nil, Hloop. simpl.
    rewrite bool_decide_eq_true_2.
    2:{ rewrite sorted_desc_length. by apply list_of_set_length_pos. }
    eexists. split_and!; [| |done|].
    + intros Hnil. apply (f_equal length) in Hnil.
      rewrite sorted_desc_length in Hnil. simpl in Hnil.
      match type of Hnil with
      | length ?l = _ =>
          assert (0 < length l)%nat by by apply list_of_set_length_pos
      end. lia.
    + intros pair. by rewrite sorted_desc_Permutation, list_of_set_elem.
    + apply Forall_forall. intros [cand score] Hin. simpl.
      rewrite sorted_desc_Permutation in Hin. apply list_of_set_elem in Hin.
      apply Hfound in Hin as (_ & _ & _ & _ & _ & _ & ->).
      split; [done|]. apply double_confidence_range, fuzz_ratio_range.
Qed.

(** On «пушкен» the index [Sample.index2] has the key «пушкин», of
    similarity 83, whose candidate has the surface «александр пушкин», of
    similarity 9: the confidence is that of 9. *)
Lemma fuzzy_tier_scores_and_confidences_witness :
  fuzz_ratio (Externals := Sample.externals) (u "пушкин") (u "пушкен") = 83 ∧
  ∃ srtd : list (Candidate * Z),
    srtd ≠ [] ∧
    (∀ pair, pair ∈ srtd ↔ pair ∈ [(Sample.pushkin_full, 9)]) ∧
    link_entities_double Sample.linker2 (u "пушкен")
      = Ok ((λ x, ident x.1) <$> srtd,
            (λ x, float_of_int x.2 * one_hundredth)%float <$> srtd) ∧
    Forall (λ x,
        x.2 = fuzz_ratio (u "пушкен") (surface x.1)
        ∧ (0 <=? float_of_int x.2 * one_hundredth)%float = true
        ∧ (float_of_int x.2 * one_hundredth <=? 1)%float = true
        ∧ (abs (float_of_int x.2 * one_hundredth - float_of_int x.2 / 100)
             <=? 0x1p-53)%float = true) srtd.
Proof.
  split; [reflexivity|].
  destruct (fuzzy_tier_scores_and_confidences Sample.linker2 (u "пушкен"))
    as (found & calls & Htraced & _ & _ & Hconf); [discriminate|].
  vm_compute in Htraced. injection Htraced as <- <-.
  apply Hconf; [reflexivity | reflexivity | discriminate].
Defined.

(** ** Tier 1: the names that are looked up *)

Section Lemmatized.
Context {E : Externals}.

Lemma product_length alphabet k mask :
  mask ∈ product alphabet k → length mask = k.
Proof.
  revert mask. induction k as [|k IH]; intros mask; simpl.
  - by intros ->%list_elem_of_singleton.
  - intros (c & Hin & _)%list_elem_of_bind.
    apply list_elem_of_fmap in Hin as (mask' & -> & Hmask').
    simpl. by rewrite (IH mask').
Qed.

(** The comparison of a character with the integer 0 never holds, so every
    mask selects the lemma at every position. *)
Lemma select_tokens_lemmas mask entity_split entity_lemm_tokens :
  length mask = length entity_split →
  length entity_lemm_tokens = length entity_split →
  select_tokens mask entity_split entity_lemm_tokens = entity_lemm_tokens.
Proof.
  revert entity_split entity_lemm_tokens.
  induction mask as [|m mask IH]; intros [|tok split] [|lemm lemms];
    simpl; try done.
  intros [= Hm] [= Hl]. by rewrite IH.
Qed.

Lemma looked_up_names_lemmatized lemmatize entity name :
  name ∈ looked_up_names lemmatize entity →
  name = entity ∨ name = join_space (normal_form <$> split_space entity).
Proof.
  unfold looked_up_names. rewrite elem_of_cons. intros [->|Hin]; [by left|].
  right. destruct (_ && _); [|by apply elem_of_nil in Hin].
  apply list_elem_of_filter in Hin as [_ Hin].
  apply list_elem_of_fmap in Hin as (mask & -> & Hmask).
  apply product_length in Hmask.
  by rewrite select_tokens_lemmas by by rewrite ?length_fmap.
Qed.

End Lemmatized.

(** C3. The entity «озера Байкал» has the lemmas «озеро» and «байкал». The
    four masks all rebuild «озеро байкал», which is looked up four times;
    the variant «озеро Байкал», which lemmatises the first token only, is
    never looked up, although it is a key of the index, and no candidate is
    found. *)
Theorem partial_lemma_variant_not_looked_up :
  (normal_form (Externals := Sample.externals) <$> split_space (u "озера Байкал"))
    = [u "озеро"; u "байкал"] ∧
  looked_up_names (E := Sample.externals) true (u "озера Байкал") =
    [u "озера Байкал"; u "озеро байкал"; u "озеро байкал";
     u "озеро байкал"; u "озеро байкал"] ∧
  (u "озеро Байкал"
     ∉ looked_up_names (E := Sample.externals) true (u "озера Байкал")) ∧
  dict_get Sample.index (u "озеро Байкал") = [Sample.lake] ∧
  find_candidate_entities Sample.linker (u "озера Байкал") = [].
Proof.
  split_and!; try reflexivity.
  apply (bool_decide_eq_false_1 _). vm_compute. reflexivity.
Qed.

(** ** Tiers 1 and 2: confidences and duplicates *)

Section Tiers.
Context {E : Externals} {HE : ExternalsOk E}.

(** Tier 1 attaches the confidence 1.0 to every identifier. *)
Lemma exact_tier_confidences self entity :
  entity ≠ [] →
  find_candidate_entities self entity ≠ [] →
  ∃ wiki_entities confidences,
    link_entities self entity = Ok (wiki_entities, confidences) ∧
    length wiki_entities = length confidences ∧
    Forall (λ confidence, confidence = 1%Q) confidences.
Proof.
  intros Hne Htier1. unfold link_entities.
  rewrite bool_decide_eq_false_2 by done.
  rewrite bool_decide_eq_true_2.
  2:{ rewrite sorted_desc_length.
      destruct (find_candidate_entities self entity); [done | simpl; lia]. }
  eexists _, _. split; [done|]. split; [by rewrite !length_fmap|].
  apply Forall_fmap, Forall_true. done.
Qed.

(** Tiers 2 and 3 go through [list(set(...))]: the sorted candidates
    contain no two equal elements. *)
Lemma substring_tier_NoDup self entity :
  NoDup (sorted_desc rank (list_of_set (substring_entity_search self entity))).
Proof. apply sorted_desc_NoDup, list_of_set_NoDup. Qed.

Lemma fuzzy_tier_NoDup (found : list Scored) :
  NoDup (sorted_desc snd (list_of_set found)).
Proof. apply sorted_desc_NoDup, list_of_set_NoDup. Qed.

End Tiers.

(** C2. When a non-empty entity has no hit in tier 1 and some hit in tier
    2, the call reaches line 70 with one fact list per candidate of the
    substring search, so at least one, and with an empty list of
    confidences: the two lists do not have the same length. *)
Theorem substring_tier_no_confidences {E : Externals} {HE : ExternalsOk E}
    (self : EntityLinker) (entity : pystr) :
  entity ≠ [] →
  find_candidate_entities self entity = [] →
  substring_entity_search self entity ≠ [] →
  ∃ entity_triplets,
    entity_triplets_of self entity = Ok (entity_triplets, []) ∧
    length entity_triplets
      = length (list_of_set (substring_entity_search self entity)) ∧
    (0 < length entity_triplets)%nat.
Proof.
  intros Hne Htier1 Htier2.
  pose proof (list_of_set_length_pos _ Htier2) as Hpos.
  unfold entity_triplets_of, link_entities.
  rewrite bool_decide_eq_false_2 by done. rewrite Htier1. simpl.
  rewrite bool_decide_eq_true_2 by by rewrite sorted_desc_length.
  simpl. eexists. split; [done|].
  rewrite extract_triplets_from_wiki_length, length_fmap, sorted_desc_length.
  done.
Qed.

Lemma substring_tier_no_confidences_witness :
  entity_triplets_of Sample.linker (u "озеро")
  = Ok ([[(u "P31", u "Q23397"); (u "P17", u "Q159")]], []).
Proof.
  destruct (substring_tier_no_confidences Sample.linker (u "озеро"))
    as (entity_triplets & Heq & _); [discriminate | reflexivity | discriminate |].
  rewrite Heq. vm_compute in Heq. injection Heq as <-. reflexivity.
Defined.

(** C9. The index lists one candidate under «кошка». For the entity
    «кошки», whose lemma is «кошка», tier 1 looks the lemma up once per
    mask and returns the candidate twice; nothing removes the repetition,
    and the call returns the same identifier and the same fact list twice. *)
Theorem exact_tier_keeps_duplicates :
  dict_get Sample.index (u "кошка") = [Sample.cat] ∧
  find_candidate_entities Sample.linker (u "кошки") = [Sample.cat; Sample.cat] ∧
  link_entities Sample.linker (u "кошки")
    = Ok ([u "Q146"; u "Q146"], [1%Q; 1%Q]) ∧
  __call__ Sample.linker (u "кошки") [u "что"; u "такое"; u "кошки"]
    = Ok ([[(u "P31", u "Q55983715")]; [(u "P31", u "Q55983715")]], [1%Q; 1%Q]).
Proof. split_and!; reflexivity. Qed.

(** * Further properties of the methods *)

(** ** [sorted(..., reverse=True)] *)

Lemma insert_desc_sorted {A} (key : A → Z) x l :
  StronglySorted (λ a b, key b ≤ key a) l →
  StronglySorted (λ a b, key b ≤ key a) (insert_desc key x l).
Proof.
  induction 1 as [|y l Hl IH Hy]; simpl.
  - by repeat constructor.
  - destruct (key x <? key y) eqn:Hlt.
    + apply Z.ltb_lt in Hlt. constructor; [done|].
      rewrite insert_desc_Permutation. constructor; [lia | done].
    + apply Z.ltb_ge in Hlt. constructor; [by constructor|].
      constructor; [done|].
      eapply Forall_impl; [exact Hy|]. simpl. intros z Hz. lia.
Qed.

Lemma sorted_desc_sorted {A} (key : A → Z) l :
  StronglySorted (λ a b, key b ≤ key a) (sorted_desc key l).
Proof.
  induction l as [|x l IH]; simpl; [constructor | by apply insert_desc_sorted].
Qed.

(** ** The filter *)

Section FilterMore.
Context {E : Externals}.

Lemma filter_loop_other (question_begin : pystr) (entity_triplets : list (list Fact)) :
  question_begin ∉ what_is_templates →
  filter_loop question_begin entity_triplets = entity_triplets.
Proof.
  intros Hq. induction entity_triplets as [|t l IH]; simpl; [done|].
  rewrite bool_decide_eq_false_2 by done. simpl. by rewrite IH.
Qed.

(** X1. [filter_triplets] raises [IndexError] exactly when there are fewer
    than two question tokens, and returns otherwise; the fact lists play no
    part in it, so even an empty list of fact lists raises on a short
    question. *)
Theorem filter_triplets_short_question (entity_triplets : list (list Fact))
    (question_tokens : list pystr) :
  (filter_triplets entity_triplets question_tokens = Raise IndexError
     ↔ (length question_tokens < 2)%nat) ∧
  (returns (filter_triplets entity_triplets question_tokens)
     ↔ (2 ≤ length question_tokens)%nat).
Proof.
  destruct (decide (2 ≤ length question_tokens)%nat) as [Hlen|Hlen].
  - destruct (filter_triplets_returns entity_triplets question_tokens Hlen)
      as [out Hout].
    rewrite Hout. split; split; try done; try lia. intros _. by exists out.
  - rewrite filter_triplets_raises by lia.
    split; split; try done; try lia. by intros [? ?].
Qed.

(** X2. When the lowercased first two tokens joined by a space are not one
    of the four templates, [filter_triplets] returns its argument as it is,
    human entities included. *)
Theorem filter_triplets_other_question (entity_triplets : list (list Fact))
    (tok0 tok1 : pystr) (rest : list pystr) :
  lower tok0 ++ u " " ++ lower tok1 ∉ what_is_templates →
  filter_triplets entity_triplets (tok0 :: tok1 :: rest) = Ok entity_triplets.
Proof.
  intros Hq. unfold filter_triplets. simpl. by rewrite filter_loop_other.
Qed.

(** X3. What [filter_triplets] returns is a sublist of its argument (nothing
    is added, changed or reordered), and filtering the result again with
    the same question returns it unchanged. *)
Theorem filter_triplets_sublist_idempotent (entity_triplets : list (list Fact))
    (question_tokens : list pystr) :
  (2 ≤ length question_tokens)%nat →
  ∃ filtered,
    filter_triplets entity_triplets question_tokens = Ok filtered ∧
    filtered `sublist_of` entity_triplets ∧
    filter_triplets filtered question_tokens = Ok filtered.
Proof.
  destruct question_tokens as [|tok0 [|tok1 rest]]; simpl; try lia. intros _.
  unfold filter_triplets. simpl. eexists. split; [done|].
  rewrite !filter_loop_filter. split; [apply sublist_filter|].
  f_equal. rewrite list_filter_filter. apply list_filter_iff. tauto.
Qed.

End FilterMore.

Lemma filter_triplets_short_question_witness :
  filter_triplets (E := Sample.externals) [] [u "что"] = Raise IndexError.
Proof. apply filter_triplets_short_question. simpl. lia. Defined.

Lemma filter_triplets_other_question_witness :
  filter_triplets (E := Sample.externals)
    [[(u "P31", u "Q5")]; []] [u "Кто"; u "такой"]
  = Ok [[(u "P31", u "Q5")]; []].
Proof.
  apply filter_triplets_other_question.
  apply (bool_decide_eq_false_1 _). vm_compute. reflexivity.
Defined.

Lemma filter_triplets_sublist_idempotent_witness :
  ∃ filtered,
    filter_triplets (E := Sample.externals)
      [[(u "P31", u "Q5")]; []] [u "Что"; u "такое"] = Ok filtered ∧
    filtered `sublist_of` [[(u "P31", u "Q5")]; []] ∧
    filter_triplets (E := Sample.externals) filtered [u "Что"; u "такое"]
      = Ok filtered.
Proof. apply filter_triplets_sublist_idempotent. simpl. lia. Defined.

(** ** The orchestrator, tier by tier *)

Section Orchestrator.
Context {E : Externals}.

(** The five ways through lines 36 to 68, with the lists the source names
    [srtd_cand_ent]. *)
Lemma link_entities_cases (self : EntityLinker) (entity : pystr) :
  ∃ wiki_entities confidences,
    link_entities self entity = Ok (wiki_entities, confidences) ∧
    ((entity = [] ∧ wiki_entities = [u "None"] ∧ confidences = [])
     ∨ (entity ≠ [] ∧
        ∃ srtd, srtd = sorted_desc rank (find_candidate_entities self entity)
          ∧ srtd ≠ []
          ∧ wiki_entities = ident <$> srtd
          ∧ confidences = replicate (length srtd) 1%Q)
     ∨ (entity ≠ [] ∧ find_candidate_entities self entity = [] ∧
        ∃ srtd, srtd = sorted_desc rank
                         (list_of_set (substring_entity_search self entity))
          ∧ srtd ≠ []
          ∧ wiki_entities = ident <$> srtd
          ∧ confidences = [])
     ∨ (entity ≠ [] ∧ find_candidate_entities self entity = [] ∧
        list_of_set (substring_entity_search self entity) = [] ∧
        ∃ (found : list (Candidate * Z)) srtd,
          fuzzy_entity_search self entity = Ok found
          ∧ srtd = sorted_desc snd (list_of_set found)
          ∧ srtd ≠ []
          ∧ wiki_entities = (λ x, ident x.1) <$> srtd
          ∧ confidences = (λ x, inject_Z x.2 * (1 # 100))%Q <$> srtd)
     ∨ (entity ≠ [] ∧ find_candidate_entities self entity = [] ∧
        list_of_set (substring_entity_search self entity) = [] ∧
        ∃ found : list (Candidate * Z),
          fuzzy_entity_search self entity = Ok found
          ∧ list_of_set found = []
          ∧ wiki_entities = [u "None"]
          ∧ confidences = [0%Q])).
Proof.
  unfold link_entities. case_bool_decide as Hentity.
  { eexists _, _. split; [done|]. by left. }
  case_bool_decide as Htier1.
  { eexists _, _. split; [done|]. right; left. split; [done|].
    eexists. split; [done|]. split_and!; try done.
    - intros Hnil. rewrite Hnil in Htier1. simpl in Htier1. lia.
    - apply const_fmap. done. }
  assert (find_candidate_entities self entity = []) as Hfind.
  { rewrite sorted_desc_length in Htier1.
    destruct (find_candidate_entities self entity); [done | simpl in Htier1; lia]. }
  case_bool_decide as Htier2.
  { eexists _, _. split; [done|]. right; right; left. split_and!; try done.
    eexists. split; [done|]. split_and!; try done.
    intros Hnil. rewrite Hnil in Htier2. simpl in Htier2. lia. }
  assert (list_of_set (substring_entity_search self entity) = []) as Hsub.
  { rewrite sorted_desc_length in Htier2.
    destruct (list_of_set (substring_entity_search self entity));
      [done | simpl in Htier2; lia]. }
  destruct (fuzzy_entity_search_returns self entity Hentity) as [found Hfound].
  rewrite Hfound. simpl. case_bool_decide as Htier3.
  - eexists _, _. split; [done|]. do 3 right; left. split_and!; try done.
    eexists found, _. split_and!; try done.
    intros Hnil. rewrite Hnil in Htier3. simpl in Htier3. lia.
  - eexists _, _. split; [done|]. do 4 right. split_and!; try done.
    exists found. split_and!; try done.
    rewrite sorted_desc_length in Htier3.
    match goal with |- ?l = [] => destruct l; [done | simpl in Htier3; lia] end.
Qed.

End Orchestrator.

Lemma replicate_sorted_desc (n : nat) (c : Q) :
  StronglySorted (λ a b : Q, (b <= a)%Q) (replicate n c).
Proof.
  induction n as [|n IH]; simpl; constructor; [done|].
  apply Forall_replicate. apply Qle_refl.
Qed.

Lemma dict_get_nil_bind (names : list pystr) :
  (name ← names; dict_get [] name) = [].
Proof. induction names as [|n l IH]; [done|]. by rewrite bind_cons, IH. Qed.

Section OrchestratorMore.
Context {E : Externals}.

(** X4. Before the filter there is always at least one fact list, and
    never more confidences than fact lists. *)
Theorem entity_triplets_of_nonempty (self : EntityLinker) (entity : pystr) :
  ∃ entity_triplets confidences,
    entity_triplets_of self entity = Ok (entity_triplets, confidences) ∧
    entity_triplets ≠ [] ∧
    (length confidences ≤ length entity_triplets)%nat.
Proof.
  unfold entity_triplets_of.
  destruct (link_entities_cases self entity) as (ids & confs & -> & Hcases).
  simpl. eexists _, _. split; [done|].
  assert (ids ≠ [] ∧ (length confs ≤ length ids)%nat) as [Hne Hlen].
  { destruct Hcases as [(_ & -> & ->) | [(_ & srtd & _ & Hs & -> & ->)
      | [(_ & _ & srtd & _ & Hs & -> & ->)
      | [(_ & _ & _ & found & srtd & _ & _ & Hs & -> & ->)
      | (_ & _ & _ & found & _ & _ & -> & ->)]]]].
    - split; [done | simpl; lia].
    - split; [by destruct srtd|]. by rewrite length_replicate, length_fmap.
    - split; [by destruct srtd | simpl; lia].
    - split; [by destruct srtd|]. by rewrite !length_fmap.
    - split; [done | simpl; lia]. }
  split.
  - intros Hnil. apply (f_equal length) in Hnil.
    rewrite extract_triplets_from_wiki_length in Hnil. by destruct ids.
  - by rewrite extract_triplets_from_wiki_length.
Qed.

(** X5. The confidences are in non-increasing order, whichever tier
    produced them. *)
Theorem confidences_descending (self : EntityLinker) (entity : pystr) :
  ∃ wiki_entities confidences,
    link_entities self entity = Ok (wiki_entities, confidences) ∧
    StronglySorted (λ a b : Q, (b <= a)%Q) confidences.
Proof.
  destruct (link_entities_cases self entity) as (ids & confs & Hlink & Hcases).
  exists ids, confs. split; [done|].
  destruct Hcases as [(_ & _ & ->) | [(_ & srtd & _ & _ & _ & ->)
    | [(_ & _ & srtd & _ & _ & _ & ->)
    | [(_ & _ & _ & found & srtd & _ & -> & _ & _ & ->)
    | (_ & _ & _ & found & _ & _ & _ & ->)]]]].
  - constructor.
  - apply replicate_sorted_desc.
  - constructor.
  - eapply StronglySorted_fmap; [|apply (sorted_desc_sorted snd)].
    intros x y Hxy. simpl in Hxy. unfold Qle. simpl. lia.
  - by repeat constructor.
Qed.

(** X6. When tier 1 finds candidates for a non-empty entity, the
    identifiers are those of all the candidates found, each as often as it
    was found, in non-increasing order of rank, and every one of them has
    the confidence 1.0. *)
Theorem exact_tier_ranked (self : EntityLinker) (entity : pystr) :
  entity ≠ [] →
  find_candidate_entities self entity ≠ [] →
  ∃ srtd,
    srtd ≡ₚ find_candidate_entities self entity ∧
    StronglySorted (λ a b, rank b ≤ rank a) srtd ∧
    link_entities self entity
      = Ok (ident <$> srtd, replicate (length srtd) 1%Q).
Proof.
  intros Hne Hfind.
  destruct (link_entities_cases self entity) as (ids & confs & Hlink & Hcases).
  destruct Hcases as [(? & _) | [(_ & srtd & -> & _ & -> & ->)
    | [(_ & ? & _) | [(_ & ? & _) | (_ & ? & _)]]]]; try done.
  eexists. split; [apply sorted_desc_Permutation|].
  split; [apply sorted_desc_sorted | done].
Qed.

(** X7. When the entity is a key of the index with at least one candidate,
    tier 1 answers: the identifier of every candidate stored under that key
    is returned, there are as many confidences as identifiers, and all are
    1.0. *)
Theorem exact_key_answers (self : EntityLinker) (entity : pystr) :
  entity ≠ [] →
  dict_get (name_to_q self) entity ≠ [] →
  ∃ wiki_entities,
    link_entities self entity
      = Ok (wiki_entities, replicate (length wiki_entities) 1%Q) ∧
    ∀ cand, cand ∈ dict_get (name_to_q self) entity → ident cand ∈ wiki_entities.
Proof.
  intros Hne Hkey.
  assert (∀ cand, cand ∈ dict_get (name_to_q self) entity →
            cand ∈ find_candidate_entities self entity) as Hsub.
  { intros cand Hcand. unfold find_candidate_entities, looked_up_names.
    rewrite bind_cons. apply elem_of_app. by left. }
  assert (find_candidate_entities self entity ≠ []) as Hfind.
  { destruct (dict_get (name_to_q self) entity) as [|c l] eqn:Hd; [done|].
    intros Hnil. specialize (Hsub c ltac:(by left)).
    rewrite Hnil in Hsub. by apply elem_of_nil in Hsub. }
  destruct (link_entities_cases self entity) as (ids & confs & Hlink & Hcases).
  destruct Hcases as [(? & _) | [(_ & srtd & -> & _ & -> & ->)
    | [(_ & ? & _) | [(_ & ? & _) | (_ & ? & _)]]]]; try done.
  exists (ident <$> sorted_desc rank (find_candidate_entities self entity)).
  split; [by rewrite Hlink, length_fmap|].
  intros cand Hcand. apply list_elem_of_fmap. exists cand. split; [done|].
  rewrite sorted_desc_Permutation. by apply Hsub.
Qed.

Context {HE : ExternalsOk E}.

(** X8. Every confidence lies between 0 and 1. *)
Theorem confidences_in_unit_interval (self : EntityLinker) (entity : pystr) :
  ∃ wiki_entities confidences,
    link_entities self entity = Ok (wiki_entities, confidences) ∧
    Forall (λ confidence, (0 <= confidence)%Q ∧ (confidence <= 1)%Q) confidences.
Proof.
  destruct (link_entities_cases self entity) as (ids & confs & Hlink & Hcases).
  exists ids, confs. split; [done|].
  destruct Hcases as [(_ & _ & ->) | [(_ & srtd & _ & _ & _ & ->)
    | [(_ & _ & srtd & _ & _ & _ & ->)
    | [(_ & _ & _ & found & srtd & Hfound & -> & _ & _ & ->)
    | (_ & _ & _ & found & _ & _ & _ & ->)]]]].
  - constructor.
  - by apply Forall_replicate.
  - constructor.
  - apply Forall_fmap, Forall_forall. intros [cand score] Hin. simpl.
    rewrite sorted_desc_Permutation in Hin. apply list_of_set_elem in Hin.
    unfold fuzzy_entity_search in Hfound.
    destruct (fuzzy_entity_search_traced self entity) as [[found' calls]|]
      eqn:Htraced; [|done].
    injection Hfound as <-.
    assert (entity ≠ []) as Hne.
    { intros ->. unfold fuzzy_entity_search_traced in Htraced.
      destruct (name_to_q self) as [|[k v] d]; simpl in Htraced; [|done].
      injection Htraced as <- <-. by apply elem_of_nil in Hin. }
    destruct (fuzzy_loop_spec _ _ _ _ _ Hne Htraced) as [Hspec _].
    apply Hspec in Hin as (_ & _ & _ & _ & _ & _ & ->).
    apply confidence_range, fuzz_ratio_range.
  - by repeat constructor.
Qed.

(** X9. When tier 1 finds nothing for a non-empty entity and the substring
    search finds something, the identifiers are those of the candidates of
    the substring search, each candidate once, in non-increasing order of
    rank. *)
Theorem substring_tier_ranked (self : EntityLinker) (entity : pystr) :
  entity ≠ [] →
  find_candidate_entities self entity = [] →
  substring_entity_search self entity ≠ [] →
  ∃ srtd,
    NoDup srtd ∧
    (∀ cand, cand ∈ srtd ↔ cand ∈ substring_entity_search self entity) ∧
    StronglySorted (λ a b, rank b ≤ rank a) srtd ∧
    link_entities self entity = Ok (ident <$> srtd, []).
Proof.
  intros Hne Hfind Hsub. apply list_of_set_nonempty in Hsub.
  destruct (link_entities_cases self entity) as (ids & confs & Hlink & Hcases).
  destruct Hcases as [(? & _) | [(_ & srtd & -> & Hs & _)
    | [(_ & _ & srtd & -> & _ & -> & ->)
    | [(_ & _ & ? & _) | (_ & _ & ? & _)]]]]; try done.
  { by rewrite Hfind in Hs. }
  eexists. split_and!; [| |apply sorted_desc_sorted|done].
  - apply sorted_desc_NoDup, list_of_set_NoDup.
  - intros cand. by rewrite sorted_desc_Permutation, list_of_set_elem.
Qed.

(** X10. When none of the three tiers finds a candidate for a non-empty
    entity, the result is the identifier None with the confidence 0.0, and
    its fact list is empty even if the store has the key None. *)
Theorem no_candidate_sentinel (self : EntityLinker) (entity : pystr) :
  entity ≠ [] →
  find_candidate_entities self entity = [] →
  substring_entity_search self entity = [] →
  fuzzy_entity_search self entity = Ok [] →
  link_entities self entity = Ok ([u "None"], [0%Q]) ∧
  entity_triplets_of self entity = Ok ([[]], [0%Q]).
Proof.
  intros Hne Hfind Hsub Hfuzzy.
  assert (link_entities self entity = Ok ([u "None"], [0%Q])) as Hlink.
  { unfold link_entities. rewrite bool_decide_eq_false_2 by done.
    rewrite Hfind, Hsub, list_of_set_nil, Hfuzzy. simpl.
    by rewrite list_of_set_nil. }
  split; [done|]. unfold entity_triplets_of. rewrite Hlink. simpl.
  by destruct (wikidata self !! u "None").
Qed.

(** X11. With an empty name index every non-empty entity gets the
    identifier None with the confidence 0.0. *)
Theorem empty_index_sentinel (self : EntityLinker) (entity : pystr) :
  name_to_q self = [] →
  entity ≠ [] →
  link_entities self entity = Ok ([u "None"], [0%Q]).
Proof.
  intros Hidx Hne. unfold link_entities.
  rewrite bool_decide_eq_false_2 by done.
  unfold find_candidate_entities, substring_entity_search, fuzzy_entity_search,
    fuzzy_entity_search_traced.
  rewrite Hidx, dict_get_nil_bind. simpl.
  by rewrite !list_of_set_nil.
Qed.

End OrchestratorMore.

(** On «кошки» the index [Sample.index2] gives the candidate of the key
    itself and, once per mask, the two candidates of the lemma «кошка»: five
    candidates of ranks 5, 3, 8, 3, 8, which the sort reorders. *)
Lemma exact_tier_ranked_witness :
  rank <$> find_candidate_entities Sample.linker2 (u "кошки") = [5; 3; 8; 3; 8] ∧
  link_entities Sample.linker2 (u "кошки")
    = Ok ([u "Q4233718"; u "Q4233718"; u "Q131186"; u "Q146"; u "Q146"],
          [1%Q; 1%Q; 1%Q; 1%Q; 1%Q]) ∧
  ∃ srtd,
    srtd ≡ₚ find_candidate_entities Sample.linker2 (u "кошки") ∧
    StronglySorted (λ a b, rank b ≤ rank a) srtd ∧
    link_entities Sample.linker2 (u "кошки")
      = Ok (ident <$> srtd, replicate (length srtd) 1%Q).
Proof.
  split; [reflexivity|]. split; [reflexivity|].
  apply exact_tier_ranked; discriminate.
Defined.

Lemma exact_key_answers_witness :
  ∃ wiki_entities,
    link_entities Sample.linker (u "кошка")
      = Ok (wiki_entities, replicate (length wiki_entities) 1%Q) ∧
    ∀ cand, cand ∈ dict_get Sample.index (u "кошка") → ident cand ∈ wiki_entities.
Proof. apply (exact_key_answers Sample.linker); discriminate. Defined.

Lemma confidences_in_unit_interval_witness :
  ∃ wiki_entities confidences,
    link_entities Sample.linker (u "пушкен") = Ok (wiki_entities, confidences) ∧
    Forall (λ confidence, (0 <= confidence)%Q ∧ (confidence <= 1)%Q) confidences.
Proof. apply confidences_in_unit_interval. Defined.

Lemma substring_tier_ranked_witness :
  ∃ srtd,
    NoDup srtd ∧
    (∀ cand, cand ∈ srtd ↔ cand ∈ substring_entity_search Sample.linker (u "пушк")) ∧
    StronglySorted (λ a b, rank b ≤ rank a) srtd ∧
    link_entities Sample.linker (u "пушк") = Ok (ident <$> srtd, []).
Proof.
  apply substring_tier_ranked; [discriminate | reflexivity | discriminate].
Defined.

Lemma no_candidate_sentinel_witness :
  link_entities Sample.linker (u "яяя") = Ok ([u "None"], [0%Q]) ∧
  entity_triplets_of Sample.linker (u "яяя") = Ok ([[]], [0%Q]).
Proof.
  apply no_candidate_sentinel; [discriminate | reflexivity..].
Defined.

Lemma empty_index_sentinel_witness :
  link_entities (mkEntityLinker [] Sample.facts true false true) (u "кошка")
  = Ok ([u "None"], [0%Q]).
Proof. apply empty_index_sentinel; [reflexivity | discriminate]. Defined.

(** ** The whole call *)

(** X12. With the filter enabled and at least two question tokens,
    [__call__] returns the confidences computed before the filter as they
    are, with a sublist of the fact lists computed before the filter; when
    the question does not start with a template, the fact lists are
    returned as they are too. *)
Theorem call_filters_fact_lists_only {E : Externals} (self : EntityLinker)
    (entity tok0 tok1 : pystr) (rest : list pystr) :
  rule_filter_entities self = true →
  ∃ entity_triplets confidences filtered,
    entity_triplets_of self entity = Ok (entity_triplets, confidences) ∧
    __call__ self entity (tok0 :: tok1 :: rest) = Ok (filtered, confidences) ∧
    filtered `sublist_of` entity_triplets ∧
    (lower tok0 ++ u " " ++ lower tok1 ∉ what_is_templates →
     filtered = entity_triplets).
Proof.
  intros Hon. unfold __call__.
  destruct (entity_triplets_of_returns self entity) as [[ets confs] ->].
  rewrite Hon. unfold filter_triplets. simpl.
  eexists _, _, _. split; [done|]. split; [done|]. split.
  - rewrite filter_loop_filter. apply sublist_filter.
  - intros Hq. by apply filter_loop_other.
Qed.

Lemma call_filters_fact_lists_only_witness :
  ∃ entity_triplets confidences filtered,
    entity_triplets_of Sample.linker (u "пушкин")
      = Ok (entity_triplets, confidences) ∧
    __call__ Sample.linker (u "пушкин") [u "Что"; u "такое"; u "пушкин"]
      = Ok (filtered, confidences) ∧
    filtered `sublist_of` entity_triplets ∧
    (lower (u "Что") ++ u " " ++ lower (u "такое") ∉ what_is_templates →
     filtered = entity_triplets).
Proof. apply (call_filters_fact_lists_only Sample.linker). reflexivity. Defined.

(** ** [fuzzy_entity_search] on its own *)

Lemma Zpos_of_nat (n : nat) : n ≠ 0%nat → Z.pos (Pos.of_nat n) = Z.of_nat n.
Proof. intros Hn. rewrite <- positive_nat_Z, Nat2Pos.id; done. Qed.

Lemma len_ratio_band (title entity : pystr) :
  entity ≠ [] →
  ((1 # 2 < len_ratio title entity)%Q ∧ (len_ratio title entity < 3 # 2)%Q)
  ↔ (length entity < 2 * length title)%nat
    ∧ (2 * length title < 3 * length entity)%nat.
Proof.
  intros Hne. assert (length entity ≠ 0%nat) as Hlen by by destruct entity.
  unfold len_ratio, Qlt. simpl. rewrite (Zpos_of_nat _ Hlen). lia.
Qed.

(** X13. [fuzzy_entity_search] raises [ZeroDivisionError] exactly when the
    entity is empty and the index has a key; in every other case it
    returns, with no candidate when the index is empty. *)
Theorem fuzzy_entity_search_division {E : Externals} (self : EntityLinker)
    (entity : pystr) :
  (fuzzy_entity_search self entity = Raise ZeroDivisionError
     ↔ entity = [] ∧ name_to_q self ≠ []) ∧
  (returns (fuzzy_entity_search self entity)
     ↔ entity ≠ [] ∨ name_to_q self = []) ∧
  (name_to_q self = [] → fuzzy_entity_search self entity = Ok []).
Proof.
  destruct (decide (entity = [])) as [->|Hne].
  - unfold fuzzy_entity_search, fuzzy_entity_search_traced, returns.
    destruct (name_to_q self) as [|[k v] d]; simpl.
    + split_and!; [|split; eauto|done]. split; [done | by intros [_ ?]].
    + split_and!; [done| |done]. split; [by intros [? ?] | by intros [?|?]].
  - destruct (fuzzy_entity_search_returns self entity Hne) as [found Hfound].
    split_and!.
    + rewrite Hfound. split; [done | by intros [? _]].
    + split; [by left | intros _; by exists found].
    + intros Hidx. unfold fuzzy_entity_search, fuzzy_entity_search_traced.
      by rewrite Hidx.
Qed.

Lemma fuzzy_entity_search_division_witness :
  fuzzy_entity_search Sample.linker [] = Raise ZeroDivisionError ∧
  returns (fuzzy_entity_search Sample.linker (u "пушкен")) ∧
  fuzzy_entity_search (mkEntityLinker [] Sample.facts true false true) [] = Ok [].
Proof.
  split; [|split].
  - apply (fuzzy_entity_search_division Sample.linker).
    split; [reflexivity | discriminate].
  - apply (fuzzy_entity_search_division Sample.linker). left. discriminate.
  - apply fuzzy_entity_search_division. reflexivity.
Defined.

(** X14. For a non-empty entity, the keys that [fuzzy_entity_search] scores
    against the entity are exactly the keys of the index with
    [len(entity) < 2 * len(key)] and [2 * len(key) < 3 * len(entity)]. *)
Theorem fuzzy_scored_keys {E : Externals} (self : EntityLinker) (entity : pystr) :
  entity ≠ [] →
  ∃ found calls,
    fuzzy_entity_search_traced self entity = Ok (found, calls) ∧
    ∀ title, ScoreTitle title entity ∈ calls ↔
      title ∈ (name_to_q self).*1
      ∧ (length entity < 2 * length title)%nat
      ∧ (2 * length title < 3 * length entity)%nat.
Proof.
  intros Hne.
  destruct (fuzzy_loop_returns (name_to_q self) entity (length entity)
              (name_to_q self).*1) as [[found calls] Hloop]; [by destruct entity|].
  exists found, calls. split; [done|]. intros title.
  destruct (fuzzy_loop_spec _ _ _ _ _ Hne Hloop) as [_ ->].
  by rewrite <- (len_ratio_band title entity Hne).
Qed.

Lemma fuzzy_scored_keys_witness :
  ∃ found calls,
    fuzzy_entity_search_traced Sample.linker (u "пушкен") = Ok (found, calls) ∧
    ∀ title, ScoreTitle title (u "пушкен") ∈ calls ↔
      title ∈ Sample.index.*1
      ∧ (length (u "пушкен") < 2 * length title)%nat
      ∧ (2 * length title < 3 * length (u "пушкен"))%nat.
Proof. apply (fuzzy_scored_keys Sample.linker). discriminate. Defined.

(** ** [find_candidate_entities] in closed form *)

Lemma product_01_length (k : nat) : length (product (u "01") k) = (2 ^ k)%nat.
Proof.
  change (u "01") with [48%N; 49%N].
  induction k as [|k IH]; [done|].
  change (product [48%N; 49%N] (S k))
    with (((48%N ::.) <$> product [48%N; 49%N] k)
          ++ ((49%N ::.) <$> product [48%N; 49%N] k) ++ []).
  rewrite !length_app, !length_fmap, IH. simpl. lia.
Qed.

Lemma filter_replicate {A} (P : A → Prop) `{!∀ x, Decision (P x)} (n : nat) (x : A) :
  filter P (replicate n x) = if decide (P x) then replicate n x else [].
Proof.
  induction n as [|n IH]; simpl; [by destruct (decide (P x))|].
  destruct (decide (P x)).
  - by rewrite filter_cons_True, IH.
  - by rewrite filter_cons_False, IH.
Qed.

Lemma bind_replicate {A B} (f : A → list B) (n : nat) (x : A) :
  (y ← replicate n x; f y) = mjoin (replicate n (f x)).
Proof.
  induction n as [|n IH]; [done|].
  cbn [replicate]. by rewrite bind_cons, IH.
Qed.

Section ClosedForm.
Context {E : Externals}.

Lemma looked_up_names_closed (lemmatize : bool) (entity : pystr) :
  looked_up_names lemmatize entity =
  entity ::
  replicate
    (if bool_decide (length (split_space entity) < 6)%nat && lemmatize
        && bool_decide (join_space (normal_form <$> split_space entity) ≠ entity)
     then 2 ^ length (split_space entity) else 0)%nat
    (join_space (normal_form <$> split_space entity)).
Proof.
  unfold looked_up_names. f_equal.
  destruct (bool_decide (length (split_space entity) < 6)%nat && lemmatize);
    [|done].
  rewrite (const_fmap _ _ (join_space (normal_form <$> split_space entity))).
  2:{ intros i mask Hmask.
      assert (mask ∈ product (u "01") (length (split_space entity))) as Hin
        by (apply list_elem_of_lookup; by exists i).
      apply product_length in Hin.
      by rewrite select_tokens_lemmas by by rewrite ?length_fmap. }
  rewrite filter_replicate, product_01_length. simpl.
  by destruct (decide (join_space (normal_form <$> split_space entity) ≠ entity));
    [rewrite bool_decide_eq_true_2 | rewrite bool_decide_eq_false_2].
Qed.

(** X15. [find_candidate_entities] returns the candidates stored under the
    entity followed, when the entity has k < 6 tokens, lemmatisation is
    enabled and the name made of the lemmas of all its tokens differs from
    the entity, by 2^k copies of the candidates stored under that name, and
    by nothing otherwise. *)
Theorem find_candidate_entities_closed (self : EntityLinker) (entity : pystr) :
  find_candidate_entities self entity =
  dict_get (name_to_q self) entity ++
  mjoin (replicate
    (if bool_decide (length (split_space entity) < 6)%nat && lemmatize self
        && bool_decide (join_space (normal_form <$> split_space entity) ≠ entity)
     then 2 ^ length (split_space entity) else 0)%nat
    (dict_get (name_to_q self)
       (join_space (normal_form <$> split_space entity)))).
Proof.
  unfold find_candidate_entities.
  by rewrite looked_up_names_closed, bind_cons, bind_replicate.
Qed.

(** X16. When lemmatisation is disabled, or the entity has six tokens or
    more, or the lemmas of its tokens joined by spaces give the entity
    itself, [find_candidate_entities] is the single lookup of the entity. *)
Theorem find_candidate_entities_exact_only (self : EntityLinker) (entity : pystr) :
  lemmatize self = false
  ∨ (6 ≤ length (split_space entity))%nat
  ∨ join_space (normal_form <$> split_space entity) = entity →
  find_candidate_entities self entity = dict_get (name_to_q self) entity.
Proof.
  intros Hcond. unfold find_candidate_entities.
  rewrite looked_up_names_closed.
  replace (bool_decide (length (split_space entity) < 6)%nat && lemmatize self
           && bool_decide (join_space (normal_form <$> split_space entity) ≠ entity))
    with false.
  { cbn [replicate]. by rewrite bind_cons, app_nil_r. }
  destruct Hcond as [-> | [Hlen | Heq]].
  - by rewrite andb_false_r.
  - by rewrite bool_decide_eq_false_2 by lia.
  - rewrite (bool_decide_eq_false_2 (_ ≠ _)) by (intros Hne; by apply Hne).
    by rewrite andb_false_r.
Qed.

End ClosedForm.

Lemma find_candidate_entities_exact_only_witness :
  (find_candidate_entities Sample.linker (u "кошка")
     = dict_get Sample.index (u "кошка")
   ∧ dict_get Sample.index (u "кошка") = [Sample.cat]) ∧
  (find_candidate_entities Sample.linker2_plain (u "кошки")
     = dict_get Sample.index2 (u "кошки")
   ∧ dict_get Sample.index2 (u "кошки") = [Sample.cats_musical]
   ∧ find_candidate_entities Sample.linker2 (u "кошки")
     ≠ dict_get Sample.index2 (u "кошки")).
Proof.
  split; [split; [|reflexivity] | split; [|split; [reflexivity | discriminate]]].
  - apply (find_candidate_entities_exact_only Sample.linker).
    right; right. reflexivity.
  - apply (find_candidate_entities_exact_only Sample.linker2_plain).
    left. reflexivity.
Defined.

(** ** [substring_entity_search] *)

Lemma find_from_infix (i : Z) (s sub : pystr) :
  0 ≤ i →
  find_from i s sub > -1 ↔ ∃ pre post, s = pre ++ sub ++ post.
Proof.
  revert i. induction s as [|c s IH]; intros i Hi; simpl; unfold startswith.
  - case_bool_decide as Hpre.
    + split; [|lia]. intros _. destruct Hpre as [post ->]. by exists [], post.
    + split; [lia|]. intros (pre & post & Heq). destruct Hpre.
      symmetry in Heq. apply app_eq_nil in Heq as [-> Heq]. simpl in Heq.
      apply app_eq_nil in Heq as [-> _]. done.
  - case_bool_decide as Hpre.
    + split; [|lia]. intros _. destruct Hpre as [post ->]. by exists [], post.
    + rewrite IH by lia. split.
      * intros (pre & post & ->). by exists (c :: pre), post.
      * intros (pre & post & Heq). destruct pre as [|c' pre].
        { destruct Hpre. exists post. done. }
        injection Heq as _ ->. by exists pre, post.
Qed.

(** X17. A candidate is returned by [substring_entity_search], at least
    once, exactly when it is stored under a key of the index that contains
    the lowercased entity as a contiguous substring; the keys are compared
    as they are stored. *)
Theorem substring_entity_search_spec {E : Externals} (self : EntityLinker)
    (entity : pystr) (cand : Candidate) :
  cand ∈ substring_entity_search self entity ↔
  ∃ title, title ∈ (name_to_q self).*1
    ∧ (∃ pre post, title = pre ++ lower entity ++ post)
    ∧ cand ∈ dict_get (name_to_q self) title.
Proof.
  unfold substring_entity_search.
  induction (name_to_q self).*1 as [|t titles IH]; simpl.
  - split; [by intros ?%elem_of_nil|]. intros (? & ?%elem_of_nil & _). done.
  - rewrite elem_of_app, IH. clear IH. unfold str_find. split.
    + intros [Hin | (title & Ht & Hinfix & Hcand)].
      * case_bool_decide as Hfind; [|by apply elem_of_nil in Hin].
        apply find_from_infix in Hfind; [|done].
        exists t. split; [by left | done].
      * exists title. split; [by right | done].
    + intros (title & Ht & Hinfix & Hcand).
      apply elem_of_cons in Ht as [-> | Ht].
      * left. rewrite bool_decide_eq_true_2; [done|].
        by apply find_from_infix.
      * right. by exists title.
Qed.

Lemma substring_entity_search_spec_witness :
  Sample.pushkino ∈ substring_entity_search Sample.linker (u "Пушк").
Proof.
  apply substring_entity_search_spec. exists (u "пушкино").
  split; [|split].
  - apply (bool_decide_unpack _). vm_compute. exact I.
  - exists [], (u "ино"). reflexivity.
  - left.
Defined.

(** ** Tier 3 and the alignment of the two lists *)

Section FuzzyTier.
Context {E : Externals} {HE : ExternalsOk E}.


(** X19. For a non-empty entity, when tier 1 finds a candidate or the
    substring search finds none, there are as many confidences as fact
    lists before the filter. *)
Theorem aligned_outside_substring_tier (self : EntityLinker) (entity : pystr) :
  entity ≠ [] →
  find_candidate_entities self entity ≠ []
    ∨ substring_entity_search self entity = [] →
  ∃ entity_triplets confidences,
    entity_triplets_of self entity = Ok (entity_triplets, confidences) ∧
    length entity_triplets = length confidences.
Proof.
  intros Hne Htier. unfold entity_triplets_of.
  destruct (link_entities_cases self entity) as (ids & confs & -> & Hcases).
  simpl. eexists _, _. split; [done|].
  rewrite extract_triplets_from_wiki_length.
  destruct Hcases as [(? & _) | [(_ & srtd & _ & _ & -> & ->)
    | [(_ & Hfind & srtd & -> & Hs & _)
    | [(_ & _ & _ & found & srtd & _ & _ & _ & -> & ->)
    | (_ & _ & _ & found & _ & _ & -> & ->)]]]]; try done.
  - by rewrite length_replicate, length_fmap.
  - destruct Htier as [Htier | Htier]; [done|].
    by rewrite Htier, list_of_set_nil in Hs.
  - by rewrite !length_fmap.
Qed.

End FuzzyTier.


Lemma aligned_outside_substring_tier_witness :
  ∃ entity_triplets confidences,
    entity_triplets_of Sample.linker (u "пушкен")
      = Ok (entity_triplets, confidences) ∧
    length entity_triplets = length confidences.
Proof.
  apply aligned_outside_substring_tier; [discriminate | right; reflexivity].
Defined.
